(** * Salary stoplight: compensation metrics and percentile classification

    A shallow embedding of [streamlit_app.py]: the benchmark table
    [STATS_TABLE], the two payment-template forms with their
    [compute_metric] methods, and the classifier
    [get_percentile_for_comp].

    Numbers are modelled as Python has them.  A Python [float] is an IEEE-754
    binary64 value, here a [spec_float] at precision 53 and maximal exponent
    1024 with the correctly rounded operations of the standard library's
    [SpecFloat].  A Python [int] is an unbounded integer, here [Z].  Mixed
    arithmetic converts the integer operand to a float first (raising
    [OverflowError] when it does not fit), true division by zero raises
    [ZeroDivisionError], and an order comparison between an [int] and a
    [float] compares the exact mathematical values. *)

From Stdlib Require Import ZArith List String Bool Lia QArith Qabs.
From Stdlib Require Import Floats.SpecFloat.
Import ListNotations.

Local Open Scope Z_scope.

(** ** Python numbers *)

Module Py.

Definition prec : Z := 53.
Definition emax : Z := 1024.

Definition float : Type := spec_float.

Definition fadd : float -> float -> float := SFadd prec emax.
Definition fmul : float -> float -> float := SFmul prec emax.
Definition fdiv : float -> float -> float := SFdiv prec emax.
Definition flt : float -> float -> bool := SFltb.
Definition fle : float -> float -> bool := SFleb.
Definition valid (x : float) : bool := valid_binary prec emax x.

Definition is_finite (x : float) : bool :=
  match x with
  | S754_zero _ | S754_finite _ _ _ => true
  | S754_infinity _ | S754_nan => false
  end.

Definition is_zero (x : float) : bool :=
  match x with
  | S754_zero _ => true
  | _ => false
  end.

Definition nan : float := S754_nan.
Definition inf : float := S754_infinity false.
Definition neg_inf : float := S754_infinity true.

(** The float nearest to an integer (ties to even); an infinity when the
    integer is beyond the largest finite float. *)
Definition Z2F (z : Z) : float := binary_normalize prec emax z 0 false.

(** A decimal literal [n / d] of the source text, correctly rounded. *)
Definition dec (n d : Z) : float := fdiv (Z2F n) (Z2F d).

Inductive exc : Type :=
| ZeroDivisionError
| OverflowError.

Inductive result (A : Type) : Type :=
| Ok (a : A)
| Raise (e : exc).
Arguments Ok {A} a.
Arguments Raise {A} e.

Definition bind {A B : Type} (c : result A) (k : A -> result B) : result B :=
  match c with
  | Ok a => k a
  | Raise e => Raise e
  end.

(** [float(z)]: [OverflowError] when [z] is too large for a float. *)
Definition float_of_int (z : Z) : result float :=
  match Z2F z with
  | S754_infinity _ => Raise OverflowError
  | f => Ok f
  end.

(** A number as a Python expression of the program yields it. *)
Inductive num : Type :=
| Int (z : Z)
| Float (f : float).

(** [z < p] for an [int] and a [float]: the exact values are compared,
    the integer is not rounded. *)
Definition int_lt_float (z : Z) (p : float) : bool :=
  match p with
  | S754_nan => false
  | S754_infinity s => negb s
  | S754_zero _ => z <? 0
  | S754_finite s m e =>
      let v := cond_Zopp s (Zpos m) in
      if 0 <=? e then z <? v * 2 ^ e else z * 2 ^ (- e) <? v
  end.

(** [x < p] where [p] is a float. *)
Definition lt_float (x : num) (p : float) : bool :=
  match x with
  | Int z => int_lt_float z p
  | Float f => flt f p
  end.

Definition num_is_finite (x : num) : bool :=
  match x with
  | Int _ => true
  | Float f => is_finite f
  end.

(** The exact rational value of a finite float. *)
Definition F2Q (x : float) : option Q :=
  match x with
  | S754_zero _ => Some 0%Q
  | S754_finite s m e =>
      let v := cond_Zopp s (Zpos m) in
      Some (if 0 <=? e then inject_Z (v * 2 ^ e)
            else Qmake v (Z.to_pos (2 ^ (- e))))
  | _ => None
  end.

(** [x] is a finite float whose exact value is the rational [q]. *)
Definition value_is (x : float) (q : Q) : Prop :=
  match F2Q x with
  | Some v => (v == q)%Q
  | None => False
  end.

End Py.

Import Py.

Declare Scope py_scope.
Delimit Scope py_scope with py.
Notation "x <- c ;; k" := (Py.bind c (fun x => k))
  (at level 61, c at next level, right associativity) : py_scope.
Local Open Scope string_scope.
Local Open Scope Z_scope.
Local Open Scope py_scope.

(** ** Enumerations and the benchmark table *)

Inductive Specialty : Type :=
| SURGERY_TRAUMA.

Definition Specialty_value (s : Specialty) : string :=
  match s with
  | SURGERY_TRAUMA => "Surgery: Trauma"
  end.

Inductive Metric : Type :=
| TOTAL_COMPENSATION
| TOTAL_HOURS
| TOTAL_RVUS
| COMPERSATION_PER_HOUR
| COMPERSATION_PER_RVU.

Definition Metric_value (m : Metric) : string :=
  match m with
  | TOTAL_COMPENSATION => "Total Compensation"
  | TOTAL_HOURS => "Total Hours"
  | TOTAL_RVUS => "Total RVUs"
  | COMPERSATION_PER_HOUR => "Compensation per Hour"
  | COMPERSATION_PER_RVU => "Compensation per RVU"
  end.

(** The pydantic model [TableRow]: every [Optional[float]] field holds a
    float when present (an integer literal is coerced to a float). *)
Record TableRow : Type := mkTableRow {
  specialty : Specialty;
  practice_type : string;
  metric : Metric;
  groups : option Z;
  providers : option Z;
  mean : option float;
  std_dev : option float;
  p25 : option float;
  p50 : option float;
  p75 : option float;
  p90 : option float
}.

(** The three rows of [STATS_TABLE], in the order of the source. *)
Definition row_total_compensation : TableRow :=
  {| specialty := SURGERY_TRAUMA;
     practice_type := "All";
     metric := TOTAL_COMPENSATION;
     groups := Some 76;
     providers := Some 262;
     mean := Some (Z2F 485989);
     std_dev := Some (Z2F 160927);
     p25 := Some (Z2F 405815);
     p50 := Some (Z2F 473355);
     p75 := Some (Z2F 550500);
     p90 := Some (Z2F 662930) |}.

Definition row_total_rvus : TableRow :=
  {| specialty := SURGERY_TRAUMA;
     practice_type := "All";
     metric := TOTAL_RVUS;
     groups := None;
     providers := Some 55;
     mean := None;
     std_dev := None;
     p25 := Some (Z2F 6270);
     p50 := Some (Z2F 11107);
     p75 := Some (Z2F 14285);
     p90 := None |}.

Definition row_compensation_per_rvu : TableRow :=
  {| specialty := SURGERY_TRAUMA;
     practice_type := "All";
     metric := COMPERSATION_PER_RVU;
     groups := None;
     providers := Some 47;
     mean := None;
     std_dev := None;
     p25 := Some (dec 3478 100);
     p50 := Some (dec 4745 100);
     p75 := Some (dec 6467 100);
     p90 := None |}.

Definition STATS_TABLE : list TableRow :=
  [ row_total_compensation; row_total_rvus; row_compensation_per_rvu ].

(** The four percentile fields of a row, lowest percentile first. *)
Definition percentiles (row : TableRow) : list (option float) :=
  [p25 row; p50 row; p75 row; p90 row].

(** ** The payment-template forms

    The fields hold what the input widgets return: a [number_input] created
    with float bounds yields a float, a [slider] or [number_input] created
    with integer bounds yields an integer. *)

Module HourlyTemplateForm.

Record t : Type := mk {
  onsite_rate : float;
  call_rate : float;
  other_compensation : float;
  onsite_hours : Z;
  call_hours : Z
}.

(** [onsite_rate * onsite_hours + call_rate * call_hours + other_compensation] *)
Definition _compute_compensation (self : t) : result float :=
  h1 <- float_of_int (onsite_hours self) ;;
  h2 <- float_of_int (call_hours self) ;;
  Ok (fadd (fadd (fmul (onsite_rate self) h1) (fmul (call_rate self) h2))
           (other_compensation self)).

Definition _compute_total_hours (self : t) : Z :=
  onsite_hours self + call_hours self.

Definition compute_metric (self : t) (metric : Metric) : result (option num) :=
  match metric with
  | TOTAL_COMPENSATION =>
      c <- _compute_compensation self ;; Ok (Some (Float c))
  | TOTAL_HOURS => Ok (Some (Int (_compute_total_hours self)))
  | COMPERSATION_PER_HOUR =>
      c <- _compute_compensation self ;;
      h <- float_of_int (_compute_total_hours self) ;;
      if is_zero h then Raise ZeroDivisionError
      else Ok (Some (Float (fdiv c h)))
  | _ => Ok None
  end.

End HourlyTemplateForm.

Module RVUTemplateForm.

Record t : Type := mk {
  base_comp : float;
  rvu_threshold : Z;
  rvu_rate : float;
  other_compensation : float;
  total_rvus : Z
}.

Definition _compute_compensation (self : t) : result float :=
  total_rvus_compensation <-
    (if total_rvus self <=? rvu_threshold self then Ok (base_comp self)
     else
       let additional_rvus := total_rvus self - rvu_threshold self in
       a <- float_of_int additional_rvus ;;
       Ok (fadd (base_comp self) (fmul a (rvu_rate self)))) ;;
  Ok (fadd total_rvus_compensation (other_compensation self)).

Definition _compute_total_rvus (self : t) : Z := total_rvus self.

Definition compute_metric (self : t) (metric : Metric) : result (option num) :=
  match metric with
  | TOTAL_COMPENSATION =>
      c <- _compute_compensation self ;; Ok (Some (Float c))
  | TOTAL_RVUS => Ok (Some (Int (_compute_total_rvus self)))
  | COMPERSATION_PER_RVU =>
      c <- _compute_compensation self ;;
      r <- float_of_int (_compute_total_rvus self) ;;
      if is_zero r then Raise ZeroDivisionError
      else Ok (Some (Float (fdiv c r)))
  | _ => Ok None
  end.

End RVUTemplateForm.

(** The form [main] builds is one of the two subclasses; [compute_metric]
    dispatches on it. *)
Inductive TemplateForm : Type :=
| Hourly (form : HourlyTemplateForm.t)
| ByRVUs (form : RVUTemplateForm.t).

Definition compute_metric (self : TemplateForm) (metric : Metric)
  : result (option num) :=
  match self with
  | Hourly form => HourlyTemplateForm.compute_metric form metric
  | ByRVUs form => RVUTemplateForm.compute_metric form metric
  end.

(** ** The classifier *)

(** [p is not None and comp < p] *)
Definition below (comp : num) (p : option float) : bool :=
  match p with
  | Some t => lt_float comp t
  | None => false
  end.

Definition get_percentile_for_comp (stats : TableRow) (comp : num)
  : string * string :=
  if below comp (p25 stats) then ("below 25th percentile", "orange")
  else if below comp (p50 stats) then ("between 25th and 50th percentile", "green")
  else if below comp (p75 stats) then ("between 50th and 75th percentile", "yellow")
  else if below comp (p90 stats) then ("between 75th and 90th percentile", "red")
  else ("above 90th percentile", "red").

(** ** The loop of [main]

    For each row of the selected specialty: compute the row's metric, skip
    the row when the form does not produce it, otherwise classify the value.
    An exception raised by [compute_metric] ends the run. *)

Definition render_row (template_form : TemplateForm) (row : TableRow)
  : result (option (Metric * num * (string * string))) :=
  m <- compute_metric template_form (metric row) ;;
  match m with
  | None => Ok None
  | Some v => Ok (Some (metric row, v, get_percentile_for_comp row v))
  end.

Fixpoint render_rows (template_form : TemplateForm) (rows : list TableRow)
  : result (list (Metric * num * (string * string))) :=
  match rows with
  | [] => Ok []
  | row :: rest =>
      r <- render_row template_form row ;;
      rs <- render_rows template_form rest ;;
      Ok (match r with Some out => out :: rs | None => rs end)
  end.

Definition main (template_form : TemplateForm) (specialty_name : string)
  : result (list (Metric * num * (string * string))) :=
  let rows :=
    filter (fun row => String.eqb (Specialty_value (specialty row)) specialty_name)
           STATS_TABLE in
  render_rows template_form rows.

(** ** The classifier's contract, as the specification words it

    Severity tags of the specification and the colour the program renders
    each with. *)

Inductive Severity : Type :=
| LowSeverity
| NormalSeverity
| ElevatedSeverity
| HighSeverity.

Definition severity_color (s : Severity) : string :=
  match s with
  | LowSeverity => "orange"
  | NormalSeverity => "green"
  | ElevatedSeverity => "yellow"
  | HighSeverity => "red"
  end.

(** A threshold is hit when it is present and the value is strictly below it. *)
Definition hit (value : num) (p : option float) : Prop :=
  exists t, p = Some t /\ lt_float value t = true.

(** The ordered threshold ladder of the specification: each rung applies
    only when no earlier rung was hit. *)
Inductive ladder (row : TableRow) (value : num) : string -> Severity -> Prop :=
| rung_p25 :
    hit value (p25 row) ->
    ladder row value "below 25th percentile" LowSeverity
| rung_p50 :
    ~ hit value (p25 row) -> hit value (p50 row) ->
    ladder row value "between 25th and 50th percentile" NormalSeverity
| rung_p75 :
    ~ hit value (p25 row) -> ~ hit value (p50 row) -> hit value (p75 row) ->
    ladder row value "between 50th and 75th percentile" ElevatedSeverity
| rung_p90 :
    ~ hit value (p25 row) -> ~ hit value (p50 row) -> ~ hit value (p75 row) ->
    hit value (p90 row) ->
    ladder row value "between 75th and 90th percentile" HighSeverity
| rung_else :
    ~ hit value (p25 row) -> ~ hit value (p50 row) -> ~ hit value (p75 row) ->
    ~ hit value (p90 row) ->
    ladder row value "above 90th percentile" HighSeverity.

(** The five classifications the program can return. *)
Definition buckets : list (string * string) :=
  [ ("below 25th percentile", "orange");
    ("between 25th and 50th percentile", "green");
    ("between 50th and 75th percentile", "yellow");
    ("between 75th and 90th percentile", "red");
    ("above 90th percentile", "red") ].

(** Present percentile values never decrease from a lower percentile to a
    higher one. *)
Definition percentiles_nondecreasing (row : TableRow) : Prop :=
  forall (i j : nat) (x y : float),
    (i < j)%nat ->
    nth_error (percentiles row) i = Some (Some x) ->
    nth_error (percentiles row) j = Some (Some y) ->
    fle x y = true.

(** ** Inputs of the specification's scenarios *)

(** The float [1.0]. *)
Definition one : float := Z2F 1.

(** The widgets' default values: on-site rate 200, on-call rate 50, no other
    compensation, 2080 on-site hours and 500 on-call hours. *)
Definition hourly_example : HourlyTemplateForm.t :=
  {| HourlyTemplateForm.onsite_rate := Z2F 200;
     HourlyTemplateForm.call_rate := Z2F 50;
     HourlyTemplateForm.other_compensation := Z2F 0;
     HourlyTemplateForm.onsite_hours := 2080;
     HourlyTemplateForm.call_hours := 500 |}.

(** The hourly form with both sliders at their minimum. *)
Definition hourly_no_hours : HourlyTemplateForm.t :=
  {| HourlyTemplateForm.onsite_rate := Z2F 200;
     HourlyTemplateForm.call_rate := Z2F 50;
     HourlyTemplateForm.other_compensation := Z2F 0;
     HourlyTemplateForm.onsite_hours := 0;
     HourlyTemplateForm.call_hours := 0 |}.

(** Base compensation 300000, threshold 5000, rate 50 above it, no other
    compensation, 7000 RVUs. *)
Definition rvu_example : RVUTemplateForm.t :=
  {| RVUTemplateForm.base_comp := Z2F 300000;
     RVUTemplateForm.rvu_threshold := 5000;
     RVUTemplateForm.rvu_rate := Z2F 50;
     RVUTemplateForm.other_compensation := Z2F 0;
     RVUTemplateForm.total_rvus := 7000 |}.

(** The same form with the RVU slider at its minimum. *)
Definition rvu_no_units : RVUTemplateForm.t :=
  {| RVUTemplateForm.base_comp := Z2F 300000;
     RVUTemplateForm.rvu_threshold := 5000;
     RVUTemplateForm.rvu_rate := Z2F 50;
     RVUTemplateForm.other_compensation := Z2F 0;
     RVUTemplateForm.total_rvus := 0 |}.

(** ** The order of the buckets and of the values *)

(** Position of a string in a list (the length of the list when absent). *)
Fixpoint index_of (s : string) (l : list string) : nat :=
  match l with
  | [] => 0%nat
  | x :: rest => if String.eqb s x then 0%nat else S (index_of s rest)
  end.

(** Rank of a classification: 0 for "below 25th percentile" up to 4 for
    "above 90th percentile". *)
Definition bucket_rank (c : string * string) : nat :=
  index_of (fst c) (map fst buckets).

(** [a <= b] for two values of the same kind, as one metric yields them. *)
Definition num_le (a b : num) : bool :=
  match a, b with
  | Int x, Int y => x <=? y
  | Float x, Float y => fle x y
  | _, _ => false
  end.

(** A threshold that is NaN, taken as absent. *)
Definition nan_as_absent (p : option float) : option float :=
  match p with
  | Some S754_nan => None
  | _ => p
  end.

Definition nan_thresholds_as_absent (row : TableRow) : TableRow :=
  {| specialty := specialty row;
     practice_type := practice_type row;
     metric := metric row;
     groups := groups row;
     providers := providers row;
     mean := mean row;
     std_dev := std_dev row;
     p25 := nan_as_absent (p25 row);
     p50 := nan_as_absent (p50 row);
     p75 := nan_as_absent (p75 row);
     p90 := nan_as_absent (p90 row) |}.

(** ** Selections of [main]

    The options of the specialty select box and the rows kept for the
    selected one, over an arbitrary table; [main] uses both with
    [STATS_TABLE]. *)

Definition specialty_options (table : list TableRow) : list string :=
  map (fun row => Specialty_value (specialty row)) table.

Definition rows_of_specialty (table : list TableRow) (specialty_name : string)
  : list TableRow :=
  filter (fun row => String.eqb (Specialty_value (specialty row)) specialty_name)
         table.

(** ** The record [main] displays for a row

    [row.model_dump()] lists the fields in declaration order, the two
    enumeration fields as enumeration members; the comprehension drops the
    fields that are [None]; the two assignments then store the members'
    display strings under the keys they already have. *)

Inductive cell : Type :=
| CSpecialty (s : Specialty)
| CMetric (m : Metric)
| CStr (s : string)
| CInt (z : Z)
| CFloat (f : float).

Definition model_dump (row : TableRow) : list (string * option cell) :=
  [ ("specialty", Some (CSpecialty (specialty row)));
    ("practice_type", Some (CStr (practice_type row)));
    ("metric", Some (CMetric (metric row)));
    ("groups", option_map CInt (groups row));
    ("providers", option_map CInt (providers row));
    ("mean", option_map CFloat (mean row));
    ("std_dev", option_map CFloat (std_dev row));
    ("p25", option_map CFloat (p25 row));
    ("p50", option_map CFloat (p50 row));
    ("p75", option_map CFloat (p75 row));
    ("p90", option_map CFloat (p90 row)) ].

(** [{k: v for k, v in d.items() if v is not None}] *)
Fixpoint drop_none (d : list (string * option cell)) : list (string * cell) :=
  match d with
  | [] => []
  | (k, Some v) :: rest => (k, v) :: drop_none rest
  | (_, None) :: rest => drop_none rest
  end.

(** [d[k] = v]: the value of an existing key is replaced where it stands, a
    new key goes to the end. *)
Fixpoint dict_set (d : list (string * cell)) (k : string) (v : cell)
  : list (string * cell) :=
  match d with
  | [] => [(k, v)]
  | (k', v') :: rest =>
      if String.eqb k k' then (k, v) :: rest else (k', v') :: dict_set rest k v
  end.

(** [d.get(k)] *)
Fixpoint dict_get (d : list (string * cell)) (k : string) : option cell :=
  match d with
  | [] => None
  | (k', v') :: rest => if String.eqb k k' then Some v' else dict_get rest k
  end.

Definition row_data (row : TableRow) : list (string * cell) :=
  let row_data := drop_none (model_dump row) in
  let row_data :=
    dict_set row_data "specialty" (CStr (Specialty_value (specialty row))) in
  dict_set row_data "metric" (CStr (Metric_value (metric row))).

(** A cell that still holds an enumeration member. *)
Definition is_enum_member (c : cell) : bool :=
  match c with
  | CSpecialty _ | CMetric _ => true
  | _ => false
  end.

(** The name of an optional field when the field is present. *)
Definition present {A : Type} (name : string) (field : option A) : list string :=
  match field with
  | Some _ => [name]
  | None => []
  end.

(** The optional fields of a row that are present, by name, in declaration
    order. *)
Definition present_fields (row : TableRow) : list string :=
  present "groups" (groups row) ++ present "providers" (providers row)
  ++ present "mean" (mean row) ++ present "std_dev" (std_dev row)
  ++ present "p25" (p25 row) ++ present "p50" (p50 row)
  ++ present "p75" (p75 row) ++ present "p90" (p90 row).

(** ** Facts about the number model *)

(** *** Rounding

    A mantissa that is already canonical is left alone by rounding; hence an
    integer below [2 ^ 53] in absolute value converts to a float without
    overflow, and multiplying by [1.0] changes nothing. *)

Lemma digits2_pos_size (p : positive) : digits2_pos p = Pos.size p.
Proof. induction p; simpl; congruence. Qed.

Lemma digits2_pos_bound (p : positive) (n : Z) :
  0 <= n -> Zpos p < 2 ^ n -> Zpos (digits2_pos p) <= n.
Proof.
  intros Hn Hp. rewrite digits2_pos_size.
  pose proof (Pos.size_le p) as Hle.
  apply Pos2Z.pos_le_pos in Hle. rewrite Pos2Z.inj_pow in Hle.
  change (Zpos p~0) with (2 * Zpos p) in Hle.
  assert (H : 2 ^ Zpos (Pos.size p) < 2 ^ (n + 1)).
  { rewrite Z.pow_add_r by lia. lia. }
  apply Z.pow_lt_mono_r_iff in H; lia.
Qed.

Lemma digits2_pos_iter_xO (m k : positive) :
  digits2_pos (Pos.iter xO m k) = (digits2_pos m + k)%positive.
Proof.
  induction k using Pos.peano_ind.
  - simpl. lia.
  - rewrite Pos.iter_succ. simpl. rewrite IHk. lia.
Qed.

Lemma shr_fexp_exact (m : positive) (e : Z) :
  fexp prec emax (Zpos (digits2_pos m) + e) = e ->
  shr_fexp prec emax (Zpos m) e loc_Exact
  = ({| shr_m := Zpos m; shr_r := false; shr_s := false |}, e).
Proof.
  intros H. unfold shr_fexp. cbn [Zdigits2]. rewrite H, Z.sub_diag. reflexivity.
Qed.

Lemma binary_round_aux_canonical (s : bool) (m : positive) (e : Z) :
  bounded prec emax m e = true ->
  binary_round_aux prec emax s (Zpos m) e loc_Exact = S754_finite s m e.
Proof.
  unfold bounded, canonical_mantissa. intros H.
  apply andb_prop in H. destruct H as [Hc He].
  apply Z.eqb_eq in Hc.
  unfold binary_round_aux. rewrite (shr_fexp_exact m e Hc).
  cbn [shr_m loc_of_shr_record round_nearest_even].
  rewrite (shr_fexp_exact m e Hc). cbn [shr_m]. rewrite He. reflexivity.
Qed.

Lemma Zpos_iter_xO (m k : positive) :
  Zpos (Pos.iter xO m k) = Zpos m * 2 ^ Zpos k.
Proof.
  induction k using Pos.peano_ind.
  - simpl. lia.
  - rewrite Pos.iter_succ, Pos2Z.inj_succ, Z.pow_succ_r by lia.
    change (Zpos (Pos.iter xO m k)~0) with (2 * Zpos (Pos.iter xO m k)).
    rewrite IHk. lia.
Qed.

Lemma binary_round_exact (s : bool) (m : positive) :
  Zpos m < 2 ^ 53 ->
  exists m' e',
    binary_round prec emax s m 0 = S754_finite s m' e' /\
    e' <= 0 /\ Zpos m' = Zpos m * 2 ^ (- e').
Proof.
  intros Hm.
  pose proof (digits2_pos_bound m 53 ltac:(lia) Hm) as Hd.
  unfold binary_round.
  assert (Hf : fexp prec emax (Zpos (digits2_pos m) + 0) = Zpos (digits2_pos m) - 53).
  { unfold fexp, emin, prec, emax. lia. }
  rewrite Hf. unfold shl_align.
  destruct (Zpos (digits2_pos m) - 53 - 0) as [|d|d] eqn:Ed; try lia.
  - rewrite binary_round_aux_canonical.
    + exists m, 0. split; [reflexivity | split; [lia | simpl; lia]].
    + unfold bounded, canonical_mantissa. rewrite Hf.
      apply andb_true_intro. split; [apply Z.eqb_eq | apply Z.leb_le]; unfold emax, prec; lia.
  - rewrite binary_round_aux_canonical.
    + do 2 eexists. split; [reflexivity | split; [lia |]].
      rewrite Zpos_iter_xO. f_equal. f_equal. lia.
    + unfold bounded, canonical_mantissa. rewrite digits2_pos_iter_xO.
      apply andb_true_intro. split; [apply Z.eqb_eq | apply Z.leb_le];
        unfold fexp, emin, emax, prec; lia.
Qed.

Lemma float_of_int_small (z : Z) :
  Z.abs z < 2 ^ 53 -> float_of_int z = Ok (Z2F z).
Proof.
  intros Hz. unfold float_of_int, Z2F, binary_normalize.
  destruct z as [|m|m].
  - reflexivity.
  - destruct (binary_round_exact false m) as (m' & e' & -> & _); [lia | reflexivity].
  - destruct (binary_round_exact true m) as (m' & e' & -> & _); [lia | reflexivity].
Qed.

Lemma Z2F_exact (z : Z) :
  Z.abs z < 2 ^ 53 -> value_is (Z2F z) (inject_Z z).
Proof.
  intros Hz. unfold value_is, Z2F, binary_normalize.
  destruct z as [|m|m].
  - simpl. reflexivity.
  - destruct (binary_round_exact false m) as (m' & e' & -> & He & Hm); [lia |].
    unfold F2Q. cbn [cond_Zopp].
    destruct (0 <=? e') eqn:E.
    + apply Z.leb_le in E. assert (e' = 0) by lia. subst e'.
      simpl in Hm. unfold Qeq. simpl. lia.
    + apply Z.leb_gt in E. unfold Qeq. cbn [Qnum Qden inject_Z].
      rewrite Z2Pos.id by (apply Z.pow_pos_nonneg; lia). lia.
  - destruct (binary_round_exact true m) as (m' & e' & -> & He & Hm); [lia |].
    unfold F2Q. cbn [cond_Zopp].
    destruct (0 <=? e') eqn:E.
    + apply Z.leb_le in E. assert (e' = 0) by lia. subst e'.
      simpl in Hm. unfold Qeq. simpl. lia.
    + apply Z.leb_gt in E. unfold Qeq. cbn [Qnum Qden inject_Z].
      rewrite Z2Pos.id by (apply Z.pow_pos_nonneg; lia). lia.
Qed.

Lemma fmul_one_l (x : float) : valid x = true -> fmul one x = x.
Proof.
  intros Hv. destruct x as [s|s| |s m e]; try reflexivity.
  change one with (S754_finite false 4503599627370496 (-52)).
  unfold fmul, SFmul. cbn [xorb].
  unfold valid, valid_binary in Hv. 
  pose proof Hv as Hb. unfold bounded, canonical_mantissa in Hb.
  apply andb_prop in Hb. destruct Hb as [Hc He]. apply Z.eqb_eq in Hc.
  unfold binary_round_aux.
  assert (Hs : shr_fexp prec emax (Zpos (4503599627370496 * m)) (-52 + e) loc_Exact
               = ({| shr_m := Zpos m; shr_r := false; shr_s := false |}, e)).
  { unfold shr_fexp. cbn [Zdigits2].
    change (4503599627370496 * m)%positive with (Pos.iter xO m 52).
    rewrite digits2_pos_iter_xO.
    assert (Hx : fexp prec emax (Zpos (digits2_pos m + 52) + (-52 + e)) - (-52 + e) = 52).
    { revert Hc. unfold fexp, emin, prec, emax. lia. }
    rewrite Hx. unfold shr.
    replace (-52 + e + 52) with e by lia. reflexivity. }
  rewrite Hs. cbn [shr_m loc_of_shr_record round_nearest_even].
  rewrite (shr_fexp_exact m e Hc). cbn [shr_m].
  unfold bounded in Hv. apply andb_prop in Hv. destruct Hv as [_ Hv]. rewrite Hv.
  reflexivity.
Qed.

(** *** Comparisons and the ladder *)


Lemma below_hit (value : num) (p : option float) :
  below value p = true <-> hit value p.
Proof.
  unfold below, hit. destruct p as [t|].
  - split.
    + intros H. exists t. split; [reflexivity | exact H].
    + intros [t' [E H]]. injection E as ->. exact H.
  - split; [discriminate | intros [t [E _]]; discriminate].
Qed.

Lemma below_not_hit (value : num) (p : option float) :
  below value p = false <-> ~ hit value p.
Proof.
  rewrite <- below_hit. destruct (below value p); split; intros H;
    try reflexivity; try discriminate; try (intros C; discriminate C).
  exfalso. apply H. reflexivity.
Qed.

Lemma flt_nan_l (p : float) : flt nan p = false.
Proof. reflexivity. Qed.

Lemma flt_inf_l (p : float) : flt inf p = false.
Proof. destruct p as [s|[|]| |s m e]; reflexivity. Qed.

Lemma flt_neg_inf_finite (p : float) :
  is_finite p = true -> flt neg_inf p = true.
Proof. destruct p as [s|s| |s m e]; simpl; intros H; try discriminate; reflexivity. Qed.

Lemma below_nan (p : option float) : below (Float nan) p = false.
Proof. destruct p as [t|]; [apply flt_nan_l | reflexivity]. Qed.

Lemma below_inf (p : option float) : below (Float inf) p = false.
Proof. destruct p as [t|]; [apply flt_inf_l | reflexivity]. Qed.

Lemma non_finite_cases (value : num) :
  num_is_finite value = false ->
  value = Float nan \/ value = Float inf \/ value = Float neg_inf.
Proof.
  destruct value as [z|[s|[|]| |s m e]]; simpl; intros H; try discriminate; auto.
Qed.

Ltac ladder_cases row comp :=
  unfold get_percentile_for_comp;
  destruct (below comp (p25 row)) eqn:E25;
  [| destruct (below comp (p50 row)) eqn:E50;
     [| destruct (below comp (p75 row)) eqn:E75;
        [| destruct (below comp (p90 row)) eqn:E90 ] ] ].

Lemma get_percentile_for_comp_in_buckets (stats : TableRow) (comp : num) :
  In (get_percentile_for_comp stats comp) buckets.
Proof.
  ladder_cases stats comp; simpl; auto 6.
Qed.

Lemma ladder_sound (row : TableRow) (value : num) (label : string) (sev : Severity) :
  ladder row value label sev ->
  get_percentile_for_comp row value = (label, severity_color sev).
Proof.
  intros L. unfold get_percentile_for_comp.
  destruct L;
    repeat match goal with
           | H : hit _ _ |- _ => apply below_hit in H; rewrite H
           | H : ~ hit _ _ |- _ => apply below_not_hit in H; rewrite H
           end; reflexivity.
Qed.

Lemma ladder_total (row : TableRow) (value : num) :
  exists label sev, ladder row value label sev.
Proof.
  destruct (below value (p25 row)) eqn:E25;
    [apply below_hit in E25; do 2 eexists; apply rung_p25; assumption |].
  destruct (below value (p50 row)) eqn:E50;
    [apply below_hit in E50; apply below_not_hit in E25;
     do 2 eexists; apply rung_p50; assumption |].
  destruct (below value (p75 row)) eqn:E75;
    [apply below_hit in E75; apply below_not_hit in E25, E50;
     do 2 eexists; apply rung_p75; assumption |].
  apply below_not_hit in E25, E50, E75.
  destruct (below value (p90 row)) eqn:E90.
  - apply below_hit in E90. do 2 eexists. apply rung_p90; assumption.
  - apply below_not_hit in E90. do 2 eexists. apply rung_else; assumption.
Qed.

(** ** The classifier *)

(** C1: for every benchmark row and value the classifier follows the ordered
    threshold ladder, first match winning, with strict comparisons and absent
    thresholds skipped: some rung of the ladder applies, the result is the
    label of whichever rung applies with that rung's severity colour, and a
    row with all four thresholds absent classifies every value as "above 90th
    percentile". *)
Theorem get_percentile_for_comp_ladder :
  forall (row : TableRow) (value : num),
    (exists label sev, ladder row value label sev) /\
    (forall label sev,
        ladder row value label sev ->
        get_percentile_for_comp row value = (label, severity_color sev)) /\
    (p25 row = None /\ p50 row = None /\ p75 row = None /\ p90 row = None ->
     get_percentile_for_comp row value = ("above 90th percentile", "red")).
Proof.
  intros row value. split; [apply ladder_total | split].
  - intros label sev. apply ladder_sound.
  - intros (H25 & H50 & H75 & H90).
    unfold get_percentile_for_comp. rewrite H25, H50, H75, H90. reflexivity.
Qed.

(** C10: the classifier is total over every row and every number, finite
    or not: it returns one of the five (label, colour) pairs, the two highest
    buckets are both red, and equal arguments give equal results. *)
Theorem get_percentile_for_comp_total :
  forall (stats : TableRow) (comp : num),
    In (get_percentile_for_comp stats comp) buckets /\
    (fst (get_percentile_for_comp stats comp) = "between 75th and 90th percentile" \/
     fst (get_percentile_for_comp stats comp) = "above 90th percentile" ->
     snd (get_percentile_for_comp stats comp) = "red") /\
    (forall stats' comp',
        stats' = stats -> comp' = comp ->
        get_percentile_for_comp stats' comp' = get_percentile_for_comp stats comp).
Proof.
  intros stats comp. split; [apply get_percentile_for_comp_in_buckets | split].
  - ladder_cases stats comp; simpl; intros [H | H]; try discriminate H; reflexivity.
  - intros stats' comp' -> ->. reflexivity.
Qed.

(** C3, as the code has it: the classifier has no finiteness check and never
    fails.  A non-finite value is still given one of the five buckets: NaN
    and +infinity are "above 90th percentile" on every row, and -infinity is
    "below 25th percentile" whenever p25 is present and finite. *)
Theorem get_percentile_for_comp_non_finite :
  forall (row : TableRow) (value : num),
    num_is_finite value = false ->
    In (get_percentile_for_comp row value) buckets /\
    (value <> Float neg_inf ->
     get_percentile_for_comp row value = ("above 90th percentile", "red")) /\
    (forall t, value = Float neg_inf -> p25 row = Some t -> is_finite t = true ->
               get_percentile_for_comp row value = ("below 25th percentile", "orange")).
Proof.
  intros row value Hnf.
  split; [apply get_percentile_for_comp_in_buckets | split].
  - intros Hneg. unfold get_percentile_for_comp.
    destruct (non_finite_cases value Hnf) as [-> | [-> | ->]].
    + rewrite !below_nan. reflexivity.
    + rewrite !below_inf. reflexivity.
    + contradiction Hneg. reflexivity.
  - intros t -> Hp Hfin. unfold get_percentile_for_comp.
    rewrite Hp. simpl. rewrite (flt_neg_inf_finite t Hfin). reflexivity.
Qed.

Lemma get_percentile_for_comp_non_finite_witness :
  num_is_finite (Float inf) = false /\
  get_percentile_for_comp row_total_compensation (Float inf)
  = ("above 90th percentile", "red").
Proof.
  split; [reflexivity |].
  apply (get_percentile_for_comp_non_finite row_total_compensation (Float inf));
    [reflexivity | discriminate].
Defined.

(** C3 as stated fails: +infinity is not finite, yet the classifier returns
    a bucket for it instead of failing. *)
Lemma get_percentile_for_comp_infinity_classified :
  num_is_finite (Float inf) = false /\
  get_percentile_for_comp row_total_compensation (Float inf)
  = ("above 90th percentile", "red") /\
  In (get_percentile_for_comp row_total_compensation (Float inf)) buckets.
Proof.
  vm_compute. intuition.
Qed.

(** C4: on the row with p25 = 405815, p50 = 473355, p75 = 550500 and
    p90 = 662930, the value 400000 is "below 25th percentile" and the value
    473355, equal to p50, is "between 50th and 75th percentile", whether the
    value arrives as a float or as an integer. *)
Theorem get_percentile_for_comp_boundary :
  forall (row : TableRow),
    p25 row = Some (Z2F 405815) ->
    p50 row = Some (Z2F 473355) ->
    p75 row = Some (Z2F 550500) ->
    p90 row = Some (Z2F 662930) ->
    get_percentile_for_comp row (Float (Z2F 400000))
    = ("below 25th percentile", "orange") /\
    get_percentile_for_comp row (Int 400000)
    = ("below 25th percentile", "orange") /\
    get_percentile_for_comp row (Float (Z2F 473355))
    = ("between 50th and 75th percentile", "yellow") /\
    get_percentile_for_comp row (Int 473355)
    = ("between 50th and 75th percentile", "yellow").
Proof.
  intros row H25 H50 H75 H90. unfold get_percentile_for_comp.
  rewrite H25, H50, H75, H90. vm_compute. repeat split.
Qed.

Lemma get_percentile_for_comp_boundary_witness :
  In row_total_compensation STATS_TABLE /\
  get_percentile_for_comp row_total_compensation (Float (Z2F 473355))
  = ("between 50th and 75th percentile", "yellow").
Proof.
  split; [left; reflexivity |].
  apply (get_percentile_for_comp_boundary row_total_compensation);
    reflexivity.
Defined.

(** ** The benchmark table *)

(** C9: every row of the benchmark table has non-decreasing percentile
    values among those present.  The table is a constant of the program: no
    operation of the model takes it as a state or returns a changed one. *)
Theorem STATS_TABLE_percentiles_nondecreasing :
  Forall percentiles_nondecreasing STATS_TABLE.
Proof.
  repeat constructor; intros i j x y Hij Hi Hj;
    destruct i as [|[|[|[|i]]]]; destruct j as [|[|[|[|j]]]];
    try lia; simpl in Hi, Hj;
    try discriminate;
    try (destruct i; discriminate); try (destruct j; discriminate);
    injection Hi as <-; injection Hj as <-; vm_compute; reflexivity.
Qed.

(** ** Metrics a form does not produce *)

(** C8: a form returns the absent result for every metric it cannot
    produce (the hourly form for total RVUs and compensation per RVU, the RVU
    form for total hours and compensation per hour), and the absent result is
    neither an exception nor a number, zero included. *)
Theorem compute_metric_not_applicable :
  forall (h : HourlyTemplateForm.t) (r : RVUTemplateForm.t),
    compute_metric (Hourly h) TOTAL_RVUS = Ok None /\
    compute_metric (Hourly h) COMPERSATION_PER_RVU = Ok None /\
    compute_metric (ByRVUs r) TOTAL_HOURS = Ok None /\
    compute_metric (ByRVUs r) COMPERSATION_PER_HOUR = Ok None /\
    (forall e : exc, @Ok (option num) None <> Raise e) /\
    (forall v : num, @Ok (option num) None <> Ok (Some v)).
Proof.
  intros h r. repeat split; intros; discriminate.
Qed.

(** ** The hourly form *)

(** C5: for every hourly input whose hour counts are below [2 ^ 53] in
    absolute value (every slider position is), total compensation is
    [onsite_rate * onsite_hours + call_rate * call_hours + other_compensation]
    in float arithmetic, the hour counts entering the products unrounded, and
    total hours is the integer [onsite_hours + call_hours]. *)
Theorem hourly_compute_metric_totals :
  forall (h : HourlyTemplateForm.t),
    Z.abs (HourlyTemplateForm.onsite_hours h) < 2 ^ 53 ->
    Z.abs (HourlyTemplateForm.call_hours h) < 2 ^ 53 ->
    compute_metric (Hourly h) TOTAL_COMPENSATION
    = Ok (Some (Float
        (fadd (fadd (fmul (HourlyTemplateForm.onsite_rate h)
                          (Z2F (HourlyTemplateForm.onsite_hours h)))
                    (fmul (HourlyTemplateForm.call_rate h)
                          (Z2F (HourlyTemplateForm.call_hours h))))
              (HourlyTemplateForm.other_compensation h)))) /\
    value_is (Z2F (HourlyTemplateForm.onsite_hours h))
             (inject_Z (HourlyTemplateForm.onsite_hours h)) /\
    value_is (Z2F (HourlyTemplateForm.call_hours h))
             (inject_Z (HourlyTemplateForm.call_hours h)) /\
    compute_metric (Hourly h) TOTAL_HOURS
    = Ok (Some (Int (HourlyTemplateForm.onsite_hours h
                     + HourlyTemplateForm.call_hours h))).
Proof.
  intros h Ho Hc.
  split; [| split; [apply Z2F_exact, Ho | split; [apply Z2F_exact, Hc | reflexivity]]].
  simpl. unfold HourlyTemplateForm._compute_compensation.
  rewrite (float_of_int_small _ Ho), (float_of_int_small _ Hc). reflexivity.
Qed.

Lemma hourly_compute_metric_totals_witness :
  compute_metric (Hourly hourly_example) TOTAL_COMPENSATION
  = Ok (Some (Float
      (fadd (fadd (fmul (Z2F 200) (Z2F 2080)) (fmul (Z2F 50) (Z2F 500)))
            (Z2F 0)))) /\
  compute_metric (Hourly hourly_example) TOTAL_HOURS = Ok (Some (Int (2080 + 500))).
Proof.
  destruct (hourly_compute_metric_totals hourly_example) as (Hc & _ & _ & Hh);
    [simpl; lia | simpl; lia |].
  split; [exact Hc | exact Hh].
Defined.

(** C7 as stated fails: on the scenario's inputs total compensation is
    exactly 441000 (200 * 2080 = 416000, plus 50 * 500 = 25000), not 466000,
    and compensation per hour is more than 9 below 180.62. *)
Lemma hourly_example_total_is_441000 :
  exists (c f : float) (q : Q),
    compute_metric (Hourly hourly_example) TOTAL_COMPENSATION
    = Ok (Some (Float c)) /\
    value_is c (inject_Z 441000) /\
    ~ value_is c (inject_Z 466000) /\
    compute_metric (Hourly hourly_example) COMPERSATION_PER_HOUR
    = Ok (Some (Float f)) /\
    F2Q f = Some q /\
    (q + 9 < 18062 # 100)%Q.
Proof.
  eexists. eexists. eexists.
  split; [vm_compute; reflexivity |].
  split; [vm_compute; reflexivity |].
  split; [vm_compute; discriminate |].
  split; [vm_compute; reflexivity |].
  split; [vm_compute; reflexivity |].
  vm_compute. reflexivity.
Qed.

(** C7, as the code has it: on the scenario's inputs total compensation is
    exactly 441000, total hours is 2580, and compensation per hour is a float
    within 0.005 of 170.93. *)
Theorem hourly_example_metrics :
  (exists c : float,
      compute_metric (Hourly hourly_example) TOTAL_COMPENSATION
      = Ok (Some (Float c)) /\
      value_is c (inject_Z 441000)) /\
  compute_metric (Hourly hourly_example) TOTAL_HOURS = Ok (Some (Int 2580)) /\
  (exists (f : float) (q : Q),
      compute_metric (Hourly hourly_example) COMPERSATION_PER_HOUR
      = Ok (Some (Float f)) /\
      F2Q f = Some q /\
      (Qabs (q - (17093 # 100)) < (5 # 1000))%Q).
Proof.
  split; [| split; [reflexivity |]].
  - eexists. split; vm_compute; reflexivity.
  - eexists. eexists.
    split; [vm_compute; reflexivity | split; [vm_compute; reflexivity |]].
    vm_compute. reflexivity.
Qed.

(** ** The RVU form *)

(** C6: total compensation of the RVU form is piecewise linear in the RVU
    count.  At or below the threshold it is [base_comp + other_compensation];
    above it, it is
    [base_comp + (total_rvus - rvu_threshold) * rvu_rate + other_compensation];
    one RVU above the threshold that is
    [base_comp + rvu_rate + other_compensation]. *)
Theorem rvu_compute_compensation_piecewise :
  forall (r : RVUTemplateForm.t),
    (RVUTemplateForm.total_rvus r <= RVUTemplateForm.rvu_threshold r ->
     compute_metric (ByRVUs r) TOTAL_COMPENSATION
     = Ok (Some (Float (fadd (RVUTemplateForm.base_comp r)
                             (RVUTemplateForm.other_compensation r))))) /\
    (RVUTemplateForm.rvu_threshold r < RVUTemplateForm.total_rvus r ->
     RVUTemplateForm.total_rvus r - RVUTemplateForm.rvu_threshold r < 2 ^ 53 ->
     compute_metric (ByRVUs r) TOTAL_COMPENSATION
     = Ok (Some (Float
         (fadd (fadd (RVUTemplateForm.base_comp r)
                     (fmul (Z2F (RVUTemplateForm.total_rvus r
                                 - RVUTemplateForm.rvu_threshold r))
                           (RVUTemplateForm.rvu_rate r)))
               (RVUTemplateForm.other_compensation r))))) /\
    (RVUTemplateForm.total_rvus r = RVUTemplateForm.rvu_threshold r + 1 ->
     valid (RVUTemplateForm.rvu_rate r) = true ->
     compute_metric (ByRVUs r) TOTAL_COMPENSATION
     = Ok (Some (Float
         (fadd (fadd (RVUTemplateForm.base_comp r) (RVUTemplateForm.rvu_rate r))
               (RVUTemplateForm.other_compensation r))))).
Proof.
  intros r. simpl. unfold RVUTemplateForm._compute_compensation.
  split; [| split].
  - intros Hle. apply Z.leb_le in Hle. rewrite Hle. reflexivity.
  - intros Hlt Hsmall.
    assert (Hgt : (RVUTemplateForm.total_rvus r <=? RVUTemplateForm.rvu_threshold r) = false)
      by (apply Z.leb_gt; exact Hlt).
    rewrite Hgt. cbv zeta.
    rewrite float_of_int_small by lia. reflexivity.
  - intros Heq Hvalid.
    assert (Hgt : (RVUTemplateForm.total_rvus r <=? RVUTemplateForm.rvu_threshold r) = false)
      by (apply Z.leb_gt; lia).
    rewrite Hgt. cbv zeta.
    replace (RVUTemplateForm.total_rvus r - RVUTemplateForm.rvu_threshold r) with 1 by lia.
    change (float_of_int 1) with (Ok one). cbn [bind].
    rewrite (fmul_one_l _ Hvalid). reflexivity.
Qed.

Lemma rvu_compute_compensation_piecewise_witness :
  compute_metric (ByRVUs rvu_example) TOTAL_COMPENSATION
  = Ok (Some (Float
      (fadd (fadd (Z2F 300000) (fmul (Z2F (7000 - 5000)) (Z2F 50))) (Z2F 0)))) /\
  fadd (fadd (Z2F 300000) (fmul (Z2F (7000 - 5000)) (Z2F 50))) (Z2F 0) = Z2F 400000.
Proof.
  split; [| vm_compute; reflexivity].
  apply (proj1 (proj2 (rvu_compute_compensation_piecewise rvu_example)));
    simpl; lia.
Defined.

(** ** Division by zero *)

(** C2: with hour counts that sum to zero the hourly form's compensation
    per hour raises [ZeroDivisionError], and with no RVUs the RVU form's
    compensation per RVU raises it too; the exception is no numeric result,
    and [main] ends with it on reaching the per-RVU row instead of handing a
    value to the classifier.  The integers involved are assumed within the
    floats' exact range, as every value the widgets yield is. *)
Theorem compute_metric_zero_denominator :
  forall (h : HourlyTemplateForm.t) (r : RVUTemplateForm.t),
    Z.abs (HourlyTemplateForm.onsite_hours h) < 2 ^ 53 ->
    HourlyTemplateForm.onsite_hours h + HourlyTemplateForm.call_hours h = 0 ->
    - 2 ^ 53 < RVUTemplateForm.rvu_threshold r ->
    RVUTemplateForm.total_rvus r = 0 ->
    compute_metric (Hourly h) COMPERSATION_PER_HOUR = Raise ZeroDivisionError /\
    compute_metric (ByRVUs r) COMPERSATION_PER_RVU = Raise ZeroDivisionError /\
    (forall v : option num, Raise ZeroDivisionError <> Ok v) /\
    render_row (ByRVUs r) row_compensation_per_rvu = Raise ZeroDivisionError /\
    main (ByRVUs r) "Surgery: Trauma" = Raise ZeroDivisionError.
Proof.
  intros h r Ho Hsum Ht Hr.
  assert (Hh : compute_metric (Hourly h) COMPERSATION_PER_HOUR = Raise ZeroDivisionError).
  { simpl. unfold HourlyTemplateForm._compute_compensation,
      HourlyTemplateForm._compute_total_hours.
    rewrite Hsum.
    rewrite (float_of_int_small _ Ho), float_of_int_small by lia.
    reflexivity. }
  assert (Hc : exists c, RVUTemplateForm._compute_compensation r = Ok c).
  { unfold RVUTemplateForm._compute_compensation. rewrite Hr.
    destruct (0 <=? RVUTemplateForm.rvu_threshold r) eqn:E.
    - eexists. reflexivity.
    - apply Z.leb_gt in E. cbv zeta.
      rewrite float_of_int_small by lia. eexists. reflexivity. }
  destruct Hc as [c Hc].
  assert (Hu : compute_metric (ByRVUs r) COMPERSATION_PER_RVU = Raise ZeroDivisionError).
  { simpl. rewrite Hc. unfold RVUTemplateForm._compute_total_rvus.
    rewrite Hr. reflexivity. }
  split; [exact Hh | split; [exact Hu | split; [discriminate | split]]].
  - unfold render_row. simpl metric. rewrite Hu. reflexivity.
  - unfold main. simpl filter. unfold render_rows, render_row.
    simpl metric. rewrite Hu.
    simpl. rewrite Hc. reflexivity.
Qed.

Lemma compute_metric_zero_denominator_witness :
  compute_metric (Hourly hourly_no_hours) COMPERSATION_PER_HOUR
  = Raise ZeroDivisionError /\
  compute_metric (ByRVUs rvu_no_units) COMPERSATION_PER_RVU
  = Raise ZeroDivisionError.
Proof.
  destruct (compute_metric_zero_denominator hourly_no_hours rvu_no_units)
    as (Hh & Hu & _); [simpl; lia | reflexivity | simpl; lia | reflexivity |].
  split; [exact Hh | exact Hu].
Defined.

(** ** More on the classifier *)

Ltac cmp_cases :=
  repeat match goal with
         | H : context [Pos.compare_cont Eq ?x ?y] |- _ =>
             change (Pos.compare_cont Eq x y) with (Pos.compare x y) in H
         | |- context [Pos.compare_cont Eq ?x ?y] =>
             change (Pos.compare_cont Eq x y) with (Pos.compare x y)
         end;
  repeat match goal with
         | H : context [Z.compare ?x ?y] |- _ =>
             destruct (Z.compare_spec x y); try discriminate H
         | H : context [Pos.compare ?x ?y] |- _ =>
             destruct (Pos.compare_spec x y); try discriminate H
         | |- context [Z.compare ?x ?y] =>
             destruct (Z.compare_spec x y)
         | |- context [Pos.compare ?x ?y] =>
             destruct (Pos.compare_spec x y)
         end.

Lemma fle_flt_trans (a b t : float) :
  fle a b = true -> flt b t = true -> flt a t = true.
Proof.
  unfold fle, flt, SFleb, SFltb.
  destruct a as [sa|sa| |sa ma ea], b as [sb|sb| |sb mb eb], t as [st|st| |st mt et];
    simpl; try discriminate; try reflexivity;
    try (destruct sa; simpl; try discriminate; try reflexivity);
    try (destruct sb; simpl; try discriminate; try reflexivity);
    try (destruct st; simpl; try discriminate; try reflexivity);
    intros H1 H2; cmp_cases; subst; try reflexivity; try lia; try discriminate.
Qed.

Lemma int_lt_float_mono (x y : Z) (t : float) :
  x <= y -> int_lt_float y t = true -> int_lt_float x t = true.
Proof.
  intros Hxy. unfold int_lt_float.
  destruct t as [s|s| |s m e]; try (intros H; exact H).
  - intros H. apply Z.ltb_lt in H. apply Z.ltb_lt. lia.
  - cbv zeta. destruct (0 <=? e) eqn:E; intros H; apply Z.ltb_lt in H; apply Z.ltb_lt.
    + lia.
    + apply Z.leb_gt in E.
      assert (0 < 2 ^ (- e)) by (apply Z.pow_pos_nonneg; lia). nia.
Qed.

Lemma below_mono (a b : num) (p : option float) :
  num_le a b = true -> below b p = true -> below a p = true.
Proof.
  destruct p as [t|]; [| intros _ H; exact H].
  destruct a as [x|x], b as [y|y]; simpl; try discriminate.
  - intros H. apply Z.leb_le in H. apply int_lt_float_mono, H.
  - apply fle_flt_trans.
Qed.

(** X1: the classifier is monotone.  For two values of the same kind
    with [a <= b], the bucket of [a] never ranks above the bucket of [b], on
    every row, whatever the order of its thresholds. *)
Theorem get_percentile_for_comp_monotone :
  forall (row : TableRow) (a b : num),
    num_le a b = true ->
    (bucket_rank (get_percentile_for_comp row a)
     <= bucket_rank (get_percentile_for_comp row b))%nat.
Proof.
  intros row a b Hab.
  pose proof (below_mono a b (p25 row) Hab) as M25.
  pose proof (below_mono a b (p50 row) Hab) as M50.
  pose proof (below_mono a b (p75 row) Hab) as M75.
  pose proof (below_mono a b (p90 row) Hab) as M90.
  revert M25 M50 M75 M90. unfold get_percentile_for_comp, bucket_rank.
  destruct (below a (p25 row)), (below b (p25 row)),
           (below a (p50 row)), (below b (p50 row)),
           (below a (p75 row)), (below b (p75 row)),
           (below a (p90 row)), (below b (p90 row));
    intros M25 M50 M75 M90;
    try discriminate (M25 eq_refl); try discriminate (M50 eq_refl);
    try discriminate (M75 eq_refl); try discriminate (M90 eq_refl);
    cbn; lia.
Qed.

Lemma get_percentile_for_comp_monotone_witness :
  (bucket_rank (get_percentile_for_comp row_total_rvus (Int 7000))
   <= bucket_rank (get_percentile_for_comp row_total_rvus (Int 12000)))%nat.
Proof.
  apply (get_percentile_for_comp_monotone row_total_rvus (Int 7000) (Int 12000)).
  reflexivity.
Defined.

(** X2: what a label guarantees.  A threshold label is returned only when
    its threshold is present and the value is strictly below it, with no
    earlier threshold hit; "above 90th percentile" is returned only when no
    present threshold exceeds the value.  So a row without p90 never yields
    "between 75th and 90th percentile". *)
Theorem get_percentile_for_comp_label_inversion :
  forall (row : TableRow) (value : num),
    (fst (get_percentile_for_comp row value) = "below 25th percentile" ->
     hit value (p25 row)) /\
    (fst (get_percentile_for_comp row value) = "between 25th and 50th percentile" ->
     hit value (p50 row) /\ ~ hit value (p25 row)) /\
    (fst (get_percentile_for_comp row value) = "between 50th and 75th percentile" ->
     hit value (p75 row) /\ ~ hit value (p25 row) /\ ~ hit value (p50 row)) /\
    (fst (get_percentile_for_comp row value) = "between 75th and 90th percentile" ->
     hit value (p90 row) /\ ~ hit value (p25 row) /\ ~ hit value (p50 row)
     /\ ~ hit value (p75 row)) /\
    (fst (get_percentile_for_comp row value) = "above 90th percentile" ->
     ~ hit value (p25 row) /\ ~ hit value (p50 row) /\ ~ hit value (p75 row)
     /\ ~ hit value (p90 row)).
Proof.
  intros row value.
  ladder_cases row value; cbn [fst];
    repeat match goal with
           | H : below _ _ = true |- _ => apply below_hit in H
           | H : below _ _ = false |- _ => apply below_not_hit in H
           end;
    (split; [| split; [| split; [| split]]]); intros L; try discriminate L;
    repeat split; assumption.
Qed.

Lemma lt_float_nan (value : num) : lt_float value nan = false.
Proof. destruct value as [z|[s|s| |s m e]]; reflexivity. Qed.

Lemma below_nan_as_absent (value : num) (p : option float) :
  below value (nan_as_absent p) = below value p.
Proof.
  destruct p as [[s|s| |s m e]|]; try reflexivity.
  simpl. symmetry. apply lt_float_nan.
Qed.

(** X3: a threshold that is NaN behaves exactly like an absent one: the
    classification of every value is the same as on the row with its NaN
    thresholds removed. *)
Theorem get_percentile_for_comp_nan_threshold :
  forall (row : TableRow) (value : num),
    get_percentile_for_comp (nan_thresholds_as_absent row) value
    = get_percentile_for_comp row value.
Proof.
  intros row value. unfold get_percentile_for_comp. cbn [p25 p50 p75 p90 nan_thresholds_as_absent].
  rewrite !below_nan_as_absent. reflexivity.
Qed.

(** ** The loop of [main] *)

Lemma render_row_ok_inv (form : TemplateForm) (row : TableRow)
      (r : option (Metric * num * (string * string))) :
  render_row form row = Ok r ->
  match r with
  | None => compute_metric form (metric row) = Ok None
  | Some (m, v, c) =>
      m = metric row /\ compute_metric form (metric row) = Ok (Some v) /\
      c = get_percentile_for_comp row v
  end.
Proof.
  unfold render_row.
  destruct (compute_metric form (metric row)) as [[v|]|e]; simpl; intros H;
    try discriminate H; injection H as <-; auto.
Qed.

(** X4: when the loop of [main] completes, every output comes from a row
    of the input: its metric is the row's, its value is what
    [compute_metric] returned for that metric, its classification is that
    value classified against that same row; and there are no more outputs
    than rows. *)
Theorem render_rows_sound :
  forall (form : TemplateForm) (rows : list TableRow)
         (outs : list (Metric * num * (string * string))),
    render_rows form rows = Ok outs ->
    Forall (fun out =>
              exists row,
                In row rows /\ fst (fst out) = metric row /\
                compute_metric form (metric row) = Ok (Some (snd (fst out))) /\
                snd out = get_percentile_for_comp row (snd (fst out)))
           outs /\
    (List.length outs <= List.length rows)%nat.
Proof.
  intros form rows. induction rows as [|row rest IH]; intros outs H.
  - injection H as <-. split; [constructor | apply Nat.le_refl].
  - cbn [render_rows] in H.
    destruct (render_row form row) as [r|e] eqn:Er; [| discriminate H].
    cbn [bind] in H.
    destruct (render_rows form rest) as [rs|e] eqn:Ers; [| discriminate H].
    cbn [bind] in H. injection H as <-.
    destruct (IH rs eq_refl) as [IHf IHl].
    assert (Hrest : Forall (fun out =>
              exists row0,
                In row0 (row :: rest) /\ fst (fst out) = metric row0 /\
                compute_metric form (metric row0) = Ok (Some (snd (fst out))) /\
                snd out = get_percentile_for_comp row0 (snd (fst out))) rs).
    { eapply Forall_impl; [| exact IHf].
      intros out (row0 & Hin & Hrest). exists row0. split; [right; exact Hin | exact Hrest]. }
    apply render_row_ok_inv in Er.
    destruct r as [[[m v] c]|].
    + destruct Er as (-> & Hc & ->). split; [| simpl; lia].
      constructor; [| exact Hrest].
      exists row. cbn [fst snd]. split; [left; reflexivity | auto].
    + split; [exact Hrest | simpl; lia].
Qed.

Lemma render_rows_sound_witness :
  (List.length [(TOTAL_COMPENSATION, Float (Z2F 441000),
            get_percentile_for_comp row_total_compensation (Float (Z2F 441000)))]
   <= List.length STATS_TABLE)%nat.
Proof.
  apply (render_rows_sound (Hourly hourly_example) STATS_TABLE).
  vm_compute. reflexivity.
Defined.

(** X5: the loop of [main] completes exactly when [compute_metric]
    returns (a value or [None]) for the metric of every row, and when it
    raises, the exception is the one [compute_metric] raised on some row. *)
Theorem render_rows_raises_iff :
  forall (form : TemplateForm) (rows : list TableRow),
    ((exists outs, render_rows form rows = Ok outs) <->
     (forall row, In row rows -> exists m, compute_metric form (metric row) = Ok m)) /\
    (forall e, render_rows form rows = Raise e ->
               exists row, In row rows /\ compute_metric form (metric row) = Raise e).
Proof.
  intros form rows. induction rows as [|row rest [IHok IHraise]].
  - split; [split |].
    + intros _ row [].
    + intros _. exists []. reflexivity.
    + intros e H. discriminate H.
  - cbn [render_rows]. unfold render_row.
    destruct (compute_metric form (metric row)) as [m|e0] eqn:Ec.
    + assert (Hr : exists r, (x <- Ok m ;; match x with
                     | Some v => Ok (Some (metric row, v, get_percentile_for_comp row v))
                     | None => Ok None end) = Ok r)
        by (destruct m; eexists; reflexivity).
      destruct Hr as [r Hr]. rewrite Hr. cbn [bind].
      split; [split |].
      * intros [outs H] row0 [<- | Hin]; [eauto |].
        apply (proj1 IHok); [| exact Hin].
        destruct (render_rows form rest) as [rs|e]; [eauto | discriminate H].
      * intros Hall.
        destruct (proj2 IHok) as [rs Hrs]; [intros row0 Hin; apply Hall; right; exact Hin |].
        rewrite Hrs. eexists. reflexivity.
      * intros e H.
        destruct (render_rows form rest) as [rs|e1] eqn:Ers; [discriminate H |].
        injection H as <-.
        destruct (IHraise e1 eq_refl) as (row0 & Hin & Hc).
        exists row0. split; [right; exact Hin | exact Hc].
    + cbn [bind]. split; [split |].
      * intros [outs H]. discriminate H.
      * intros Hall. destruct (Hall row (or_introl eq_refl)) as [m Hm].
        rewrite Ec in Hm. discriminate Hm.
      * intros e H. injection H as <-. exists row. split; [left; reflexivity | exact Ec].
Qed.

(** ** Failures and quotients of [compute_metric] *)

Lemma Z2F_nonzero (z : Z) :
  z <> 0 -> Z.abs z < 2 ^ 53 -> is_zero (Z2F z) = false.
Proof.
  intros Hz Hs. unfold Z2F, binary_normalize. destruct z as [|m|m].
  - contradiction Hz. reflexivity.
  - destruct (binary_round_exact false m) as (m' & e' & -> & _); [lia | reflexivity].
  - destruct (binary_round_exact true m) as (m' & e' & -> & _); [lia | reflexivity].
Qed.

Lemma hourly_compensation_ok (h : HourlyTemplateForm.t) :
  Z.abs (HourlyTemplateForm.onsite_hours h) < 2 ^ 53 ->
  Z.abs (HourlyTemplateForm.call_hours h) < 2 ^ 53 ->
  exists c, HourlyTemplateForm._compute_compensation h = Ok c.
Proof.
  intros Ho Hc. unfold HourlyTemplateForm._compute_compensation.
  rewrite (float_of_int_small _ Ho), (float_of_int_small _ Hc).
  eexists. reflexivity.
Qed.

Lemma rvu_compensation_ok (r : RVUTemplateForm.t) :
  RVUTemplateForm.total_rvus r - RVUTemplateForm.rvu_threshold r < 2 ^ 53 ->
  exists c, RVUTemplateForm._compute_compensation r = Ok c.
Proof.
  intros Hd. unfold RVUTemplateForm._compute_compensation.
  destruct (RVUTemplateForm.total_rvus r <=? RVUTemplateForm.rvu_threshold r) eqn:E.
  - eexists. reflexivity.
  - apply Z.leb_gt in E. cbv zeta. rewrite float_of_int_small by lia.
    eexists. reflexivity.
Qed.

(** X6: with hour counts (and their sum) below [2 ^ 53] in absolute
    value, the hourly form's [compute_metric] raises in one case only,
    [ZeroDivisionError] for compensation per hour when the hours sum to zero;
    otherwise compensation per hour is total compensation divided by the
    float of total hours. *)
Theorem hourly_compute_metric_failures :
  forall (h : HourlyTemplateForm.t),
    Z.abs (HourlyTemplateForm.onsite_hours h) < 2 ^ 53 ->
    Z.abs (HourlyTemplateForm.call_hours h) < 2 ^ 53 ->
    Z.abs (HourlyTemplateForm.onsite_hours h + HourlyTemplateForm.call_hours h)
    < 2 ^ 53 ->
    (forall metric e,
        compute_metric (Hourly h) metric = Raise e <->
        metric = COMPERSATION_PER_HOUR /\ e = ZeroDivisionError /\
        HourlyTemplateForm.onsite_hours h + HourlyTemplateForm.call_hours h = 0) /\
    (exists c,
        compute_metric (Hourly h) TOTAL_COMPENSATION = Ok (Some (Float c)) /\
        (HourlyTemplateForm.onsite_hours h + HourlyTemplateForm.call_hours h <> 0 ->
         compute_metric (Hourly h) COMPERSATION_PER_HOUR
         = Ok (Some (Float
             (fdiv c (Z2F (HourlyTemplateForm.onsite_hours h
                           + HourlyTemplateForm.call_hours h))))))).
Proof.
  intros h Ho Hc Hs.
  destruct (hourly_compensation_ok h Ho Hc) as [c Ec].
  assert (Hper :
    compute_metric (Hourly h) COMPERSATION_PER_HOUR
    = if HourlyTemplateForm.onsite_hours h + HourlyTemplateForm.call_hours h =? 0
      then Raise ZeroDivisionError
      else Ok (Some (Float
             (fdiv c (Z2F (HourlyTemplateForm.onsite_hours h
                           + HourlyTemplateForm.call_hours h)))))).
  { cbn [compute_metric HourlyTemplateForm.compute_metric]. rewrite Ec. cbn [bind].
    unfold HourlyTemplateForm._compute_total_hours.
    rewrite (float_of_int_small _ Hs). cbn [bind].
    destruct (Z.eqb_spec (HourlyTemplateForm.onsite_hours h
                          + HourlyTemplateForm.call_hours h) 0) as [E | E].
    - rewrite E. reflexivity.
    - rewrite (Z2F_nonzero _ E Hs). reflexivity. }
  split.
  - intros metric e. split.
    + destruct metric;
        try (cbn [compute_metric HourlyTemplateForm.compute_metric];
             try (rewrite Ec; cbn [bind]); discriminate).
      rewrite Hper.
      destruct (Z.eqb_spec (HourlyTemplateForm.onsite_hours h
                            + HourlyTemplateForm.call_hours h) 0) as [E | E];
        [| discriminate].
      intros H. injection H as <-. auto.
    + intros (-> & -> & E). rewrite Hper, E. reflexivity.
  - exists c. split.
    + cbn [compute_metric HourlyTemplateForm.compute_metric]. rewrite Ec. reflexivity.
    + intros E. rewrite Hper. apply Z.eqb_neq in E. rewrite E. reflexivity.
Qed.

Lemma hourly_compute_metric_failures_witness :
  compute_metric (Hourly hourly_no_hours) COMPERSATION_PER_HOUR
  = Raise ZeroDivisionError /\
  (forall e, compute_metric (Hourly hourly_no_hours) TOTAL_COMPENSATION <> Raise e).
Proof.
  destruct (hourly_compute_metric_failures hourly_no_hours) as [Hiff _];
    [simpl; lia | simpl; lia | simpl; lia |].
  split.
  - apply Hiff. repeat split.
  - intros e H. apply Hiff in H. destruct H as (H & _). discriminate H.
Defined.

(** X7: with an RVU count below [2 ^ 53] in absolute value and fewer than
    [2 ^ 53] RVUs above the threshold, the RVU form's [compute_metric]
    raises in one case only, [ZeroDivisionError] for compensation per RVU
    when there are no RVUs; total RVUs is the count itself, and otherwise
    compensation per RVU is total compensation divided by the float of the
    count. *)
Theorem rvu_compute_metric_failures :
  forall (r : RVUTemplateForm.t),
    Z.abs (RVUTemplateForm.total_rvus r) < 2 ^ 53 ->
    RVUTemplateForm.total_rvus r - RVUTemplateForm.rvu_threshold r < 2 ^ 53 ->
    (forall metric e,
        compute_metric (ByRVUs r) metric = Raise e <->
        metric = COMPERSATION_PER_RVU /\ e = ZeroDivisionError /\
        RVUTemplateForm.total_rvus r = 0) /\
    (exists c,
        compute_metric (ByRVUs r) TOTAL_COMPENSATION = Ok (Some (Float c)) /\
        compute_metric (ByRVUs r) TOTAL_RVUS
        = Ok (Some (Int (RVUTemplateForm.total_rvus r))) /\
        (RVUTemplateForm.total_rvus r <> 0 ->
         compute_metric (ByRVUs r) COMPERSATION_PER_RVU
         = Ok (Some (Float (fdiv c (Z2F (RVUTemplateForm.total_rvus r))))))).
Proof.
  intros r Ht Hd.
  destruct (rvu_compensation_ok r Hd) as [c Ec].
  assert (Hper :
    compute_metric (ByRVUs r) COMPERSATION_PER_RVU
    = if RVUTemplateForm.total_rvus r =? 0
      then Raise ZeroDivisionError
      else Ok (Some (Float (fdiv c (Z2F (RVUTemplateForm.total_rvus r)))))).
  { cbn [compute_metric RVUTemplateForm.compute_metric]. rewrite Ec. cbn [bind].
    unfold RVUTemplateForm._compute_total_rvus.
    rewrite (float_of_int_small _ Ht). cbn [bind].
    destruct (Z.eqb_spec (RVUTemplateForm.total_rvus r) 0) as [E | E].
    - rewrite E. reflexivity.
    - rewrite (Z2F_nonzero _ E Ht). reflexivity. }
  split.
  - intros metric e. split.
    + destruct metric;
        try (cbn [compute_metric RVUTemplateForm.compute_metric];
             try (rewrite Ec; cbn [bind]); discriminate).
      rewrite Hper.
      destruct (Z.eqb_spec (RVUTemplateForm.total_rvus r) 0) as [E | E];
        [| discriminate].
      intros H. injection H as <-. auto.
    + intros (-> & -> & E). rewrite Hper, E. reflexivity.
  - exists c. split; [| split].
    + cbn [compute_metric RVUTemplateForm.compute_metric]. rewrite Ec. reflexivity.
    + reflexivity.
    + intros E. rewrite Hper. apply Z.eqb_neq in E. rewrite E. reflexivity.
Qed.

Lemma rvu_compute_metric_failures_witness :
  compute_metric (ByRVUs rvu_no_units) COMPERSATION_PER_RVU
  = Raise ZeroDivisionError /\
  (forall e, compute_metric (ByRVUs rvu_example) COMPERSATION_PER_RVU <> Raise e).
Proof.
  split.
  - destruct (rvu_compute_metric_failures rvu_no_units) as [Hiff _];
      [simpl; lia | simpl; lia |].
    apply Hiff. repeat split.
  - destruct (rvu_compute_metric_failures rvu_example) as [Hiff _];
      [simpl; lia | simpl; lia |].
    intros e H. apply Hiff in H. destruct H as (_ & _ & H). discriminate H.
Defined.

(** ** What [main] shows *)

Lemma main_trauma (form : TemplateForm) :
  main form "Surgery: Trauma" = render_rows form STATS_TABLE.
Proof. reflexivity. Qed.

(** X8: with the hourly form [main] never divides: the table has no row
    for total hours or compensation per hour, so for in-range hour counts,
    a zero total included, [main] returns exactly one output, total
    compensation classified against the total-compensation row. *)
Theorem main_hourly :
  forall (h : HourlyTemplateForm.t),
    Z.abs (HourlyTemplateForm.onsite_hours h) < 2 ^ 53 ->
    Z.abs (HourlyTemplateForm.call_hours h) < 2 ^ 53 ->
    exists c,
      compute_metric (Hourly h) TOTAL_COMPENSATION = Ok (Some (Float c)) /\
      main (Hourly h) "Surgery: Trauma"
      = Ok [ (TOTAL_COMPENSATION, Float c,
              get_percentile_for_comp row_total_compensation (Float c)) ].
Proof.
  intros h Ho Hc.
  destruct (hourly_compensation_ok h Ho Hc) as [c Ec].
  exists c.
  assert (Ht : compute_metric (Hourly h) TOTAL_COMPENSATION = Ok (Some (Float c))).
  { cbn [compute_metric HourlyTemplateForm.compute_metric]. rewrite Ec. reflexivity. }
  split; [exact Ht |].
  rewrite main_trauma. unfold STATS_TABLE.
  cbn [render_rows]. unfold render_row.
  change (metric row_total_compensation) with TOTAL_COMPENSATION.
  rewrite Ht. reflexivity.
Qed.

Lemma main_hourly_witness :
  exists c,
    compute_metric (Hourly hourly_no_hours) TOTAL_COMPENSATION = Ok (Some (Float c)) /\
    main (Hourly hourly_no_hours) "Surgery: Trauma"
    = Ok [ (TOTAL_COMPENSATION, Float c,
            get_percentile_for_comp row_total_compensation (Float c)) ].
Proof.
  apply (main_hourly hourly_no_hours); simpl; lia.
Defined.

(** X9: with the RVU form and a non-zero in-range RVU count, [main]
    returns exactly three outputs in table order: total compensation, total
    RVUs (an integer) and compensation per RVU, each classified against its
    own row. *)
Theorem main_rvu :
  forall (r : RVUTemplateForm.t),
    Z.abs (RVUTemplateForm.total_rvus r) < 2 ^ 53 ->
    RVUTemplateForm.total_rvus r - RVUTemplateForm.rvu_threshold r < 2 ^ 53 ->
    RVUTemplateForm.total_rvus r <> 0 ->
    exists c,
      RVUTemplateForm._compute_compensation r = Ok c /\
      main (ByRVUs r) "Surgery: Trauma"
      = Ok [ (TOTAL_COMPENSATION, Float c,
              get_percentile_for_comp row_total_compensation (Float c));
             (TOTAL_RVUS, Int (RVUTemplateForm.total_rvus r),
              get_percentile_for_comp row_total_rvus
                (Int (RVUTemplateForm.total_rvus r)));
             (COMPERSATION_PER_RVU,
              Float (fdiv c (Z2F (RVUTemplateForm.total_rvus r))),
              get_percentile_for_comp row_compensation_per_rvu
                (Float (fdiv c (Z2F (RVUTemplateForm.total_rvus r))))) ].
Proof.
  intros r Ht Hd Hnz.
  destruct (rvu_compensation_ok r Hd) as [c Ec].
  exists c. split; [exact Ec |].
  rewrite main_trauma. unfold STATS_TABLE.
  cbn [render_rows]. unfold render_row.
  change (metric row_total_compensation) with TOTAL_COMPENSATION.
  change (metric row_total_rvus) with TOTAL_RVUS.
  change (metric row_compensation_per_rvu) with COMPERSATION_PER_RVU.
  cbn [compute_metric RVUTemplateForm.compute_metric].
  rewrite Ec. unfold RVUTemplateForm._compute_total_rvus.
  rewrite (float_of_int_small _ Ht). cbn [bind].
  rewrite (Z2F_nonzero _ Hnz Ht). reflexivity.
Qed.

Lemma main_rvu_witness :
  exists outs,
    main (ByRVUs rvu_example) "Surgery: Trauma" = Ok outs /\
    map (fun out => fst (fst out)) outs
    = [TOTAL_COMPENSATION; TOTAL_RVUS; COMPERSATION_PER_RVU].
Proof.
  destruct (main_rvu rvu_example) as (c & _ & H);
    [simpl; lia | simpl; lia | discriminate |].
  eexists. split; [exact H | reflexivity].
Defined.

(** ** The selections of [main] *)

Lemma rows_of_specialty_nonempty (table : list TableRow) (name : string) :
  In name (specialty_options table) <-> rows_of_specialty table name <> [].
Proof.
  unfold specialty_options, rows_of_specialty.
  induction table as [|row rest IH]; cbn [map filter In].
  - split; [intros [] | intros H; contradiction H; reflexivity].
  - destruct (String.eqb_spec (Specialty_value (specialty row)) name) as [E | E].
    + split; [intros _; discriminate | intros _; left; exact E].
    + rewrite <- IH. split; [intros [H | H]; [contradiction | exact H] | intros H; right; exact H].
Qed.

(** X10: the specialty select box and the row filter agree.  A name is
    among the offered options exactly when the filter keeps at least one row
    for it; the kept rows are the table's rows of that specialty; [main]
    runs its loop over them; and for a name that is not offered [main]
    shows nothing and returns normally. *)
Theorem main_specialty_selection :
  forall (form : TemplateForm) (table : list TableRow) (name : string),
    (In name (specialty_options table) <-> rows_of_specialty table name <> []) /\
    (forall row,
        In row (rows_of_specialty table name) <->
        In row table /\ Specialty_value (specialty row) = name) /\
    main form name = render_rows form (rows_of_specialty STATS_TABLE name) /\
    (~ In name (specialty_options STATS_TABLE) -> main form name = Ok []).
Proof.
  intros form table name. split; [apply rows_of_specialty_nonempty | split; [| split]].
  - intros row. unfold rows_of_specialty. rewrite filter_In.
    split; intros [H1 H2]; (split; [exact H1 |]).
    + apply String.eqb_eq, H2.
    + apply String.eqb_eq, H2.
  - reflexivity.
  - intros Hn. change (main form name)
      with (render_rows form (rows_of_specialty STATS_TABLE name)).
    destruct (rows_of_specialty STATS_TABLE name) as [|row rest] eqn:E;
      [reflexivity |].
    contradiction Hn. apply rows_of_specialty_nonempty. rewrite E. discriminate.
Qed.

(** ** The displayed record *)

(** X11: the record displayed for a row has the columns specialty,
    practice_type and metric followed by exactly the optional fields that
    are present, in declaration order and without repetition; specialty and
    metric hold their display strings, and no enumeration member remains. *)
Theorem row_data_columns :
  forall (row : TableRow),
    map fst (row_data row)
    = (["specialty"; "practice_type"; "metric"] ++ present_fields row)%list /\
    NoDup (map fst (row_data row)) /\
    dict_get (row_data row) "specialty"
    = Some (CStr (Specialty_value (specialty row))) /\
    dict_get (row_data row) "practice_type" = Some (CStr (practice_type row)) /\
    dict_get (row_data row) "metric" = Some (CStr (Metric_value (metric row))) /\
    forallb (fun kv => negb (is_enum_member (snd kv))) (row_data row) = true.
Proof.
  intros [sp pt me g pr mn sd q25 q50 q75 q90].
  assert (Hk : map fst (row_data (mkTableRow sp pt me g pr mn sd q25 q50 q75 q90))
               = (["specialty"; "practice_type"; "metric"]
                  ++ present_fields
                       (mkTableRow sp pt me g pr mn sd q25 q50 q75 q90))%list).
  { destruct g, pr, mn, sd, q25, q50, q75, q90; reflexivity. }
  split; [exact Hk | split; [| split; [| split; [| split]]]].
  - rewrite Hk.
    destruct g, pr, mn, sd, q25, q50, q75, q90;
      repeat constructor; cbn; intuition discriminate.
  - destruct g, pr, mn, sd, q25, q50, q75, q90; reflexivity.
  - destruct g, pr, mn, sd, q25, q50, q75, q90; reflexivity.
  - destruct g, pr, mn, sd, q25, q50, q75, q90; reflexivity.
  - destruct g, pr, mn, sd, q25, q50, q75, q90; reflexivity.
Qed.

(** ** Integers and floats compare alike *)

Lemma digits2_pos_lower (p : positive) :
  2 ^ (Zpos (digits2_pos p) - 1) <= Zpos p.
Proof.
  rewrite digits2_pos_size.
  pose proof (Pos.size_le p) as Hle.
  apply Pos2Z.pos_le_pos in Hle. rewrite Pos2Z.inj_pow in Hle.
  change (Zpos p~0) with (2 * Zpos p) in Hle.
  replace (Zpos (Pos.size p)) with (Z.succ (Zpos (Pos.size p) - 1)) in Hle by lia.
  rewrite Z.pow_succ_r in Hle by lia. lia.
Qed.

Lemma digits2_pos_upper (p : positive) :
  Zpos p < 2 ^ Zpos (digits2_pos p).
Proof.
  rewrite digits2_pos_size.
  pose proof (Pos.size_gt p) as Hgt.
  apply Pos2Z.pos_lt_pos in Hgt. rewrite Pos2Z.inj_pow in Hgt. exact Hgt.
Qed.

Lemma bounded_cases (m : positive) (e : Z) :
  bounded prec emax m e = true ->
  - 1074 <= e /\ Zpos (digits2_pos m) <= 53 /\
  (- 1074 < e -> Zpos (digits2_pos m) = 53).
Proof.
  unfold bounded, canonical_mantissa. intros H.
  apply andb_prop in H. destruct H as [Hc _]. apply Z.eqb_eq in Hc.
  revert Hc. unfold fexp, emin, prec, emax. lia.
Qed.

(** The value of a canonical float, scaled to an integer. *)
Lemma scaled_lt (m1 m2 : positive) (e1 e2 : Z) :
  bounded prec emax m1 e1 = true -> bounded prec emax m2 e2 = true ->
  e1 < e2 ->
  Zpos m1 * 2 ^ (e1 + 1074) < Zpos m2 * 2 ^ (e2 + 1074).
Proof.
  intros B1 B2 He.
  destruct (bounded_cases m1 e1 B1) as (L1 & D1 & _).
  destruct (bounded_cases m2 e2 B2) as (L2 & _ & D2).
  specialize (D2 ltac:(lia)).
  pose proof (digits2_pos_upper m1) as U1.
  pose proof (digits2_pos_lower m2) as W2. rewrite D2 in W2.
  assert (U1' : Zpos m1 < 2 ^ 53).
  { eapply Z.lt_le_trans; [exact U1 |]. apply Z.pow_le_mono_r; lia. }
  assert (P1 : 0 < 2 ^ (e1 + 1074)) by (apply Z.pow_pos_nonneg; lia).
  assert (P2 : 2 * 2 ^ (e1 + 1074) <= 2 ^ (e2 + 1074)).
  { rewrite <- Z.pow_succ_r by lia. apply Z.pow_le_mono_r; lia. }
  change (2 ^ (53 - 1)) with 4503599627370496 in W2.
  change (2 ^ 53) with 9007199254740992 in U1'.
  nia.
Qed.

Lemma finite_compare_scaled (m1 m2 : positive) (e1 e2 : Z) :
  bounded prec emax m1 e1 = true -> bounded prec emax m2 e2 = true ->
  match Z.compare e1 e2 with
  | Lt => Lt
  | Gt => Gt
  | Eq => Pos.compare_cont Eq m1 m2
  end
  = Z.compare (Zpos m1 * 2 ^ (e1 + 1074)) (Zpos m2 * 2 ^ (e2 + 1074)).
Proof.
  intros B1 B2. symmetry.
  destruct (Z.compare_spec e1 e2) as [E | E | E].
  - subst e2. destruct (bounded_cases m1 e1 B1) as (L1 & _ & _).
    assert (P : 0 < 2 ^ (e1 + 1074)) by (apply Z.pow_pos_nonneg; lia).
    change (Pos.compare_cont Eq m1 m2) with (Zpos m1 ?= Zpos m2).
    destruct (Z.compare_spec (Zpos m1) (Zpos m2)) as [C | C | C];
      [apply Z.compare_eq_iff | apply Z.compare_lt_iff | apply Z.compare_gt_iff]; nia.
  - apply Z.compare_lt_iff. apply scaled_lt; assumption.
  - apply Z.compare_gt_iff. apply scaled_lt; assumption.
Qed.

Lemma int_lt_float_scaled (z : Z) (s : bool) (m : positive) (e : Z) :
  - 1074 <= e ->
  int_lt_float z (S754_finite s m e)
  = (z * 2 ^ 1074 <? cond_Zopp s (Zpos m) * 2 ^ (e + 1074)).
Proof.
  intros He. unfold int_lt_float. cbv zeta.
  set (v := cond_Zopp s (Zpos m)).
  destruct (0 <=? e) eqn:E.
  - apply Z.leb_le in E. rewrite Z.pow_add_r by lia.
    assert (P : 0 < 2 ^ 1074) by (apply Z.pow_pos_nonneg; lia).
    rewrite Z.mul_assoc.
    destruct (Z.ltb_spec z (v * 2 ^ e)) as [H | H];
      destruct (Z.ltb_spec (z * 2 ^ 1074) (v * 2 ^ e * 2 ^ 1074)) as [H' | H'];
      try reflexivity; exfalso; nia.
  - apply Z.leb_gt in E.
    assert (Hs : 2 ^ 1074 = 2 ^ (- e) * 2 ^ (e + 1074)).
    { rewrite <- Z.pow_add_r by lia. f_equal. lia. }
    rewrite Hs.
    assert (P : 0 < 2 ^ (e + 1074)) by (apply Z.pow_pos_nonneg; lia).
    rewrite Z.mul_assoc.
    destruct (Z.ltb_spec (z * 2 ^ (- e)) v) as [H | H];
      destruct (Z.ltb_spec (z * 2 ^ (- e) * 2 ^ (e + 1074)) (v * 2 ^ (e + 1074)))
        as [H' | H'];
      try reflexivity; exfalso; nia.
Qed.

Lemma binary_round_bounded (s : bool) (p : positive) :
  Zpos p < 2 ^ 53 ->
  exists m e,
    binary_round prec emax s p 0 = S754_finite s m e /\
    bounded prec emax m e = true /\
    Zpos m * 2 ^ (e + 1074) = Zpos p * 2 ^ 1074.
Proof.
  intros Hp.
  pose proof (digits2_pos_bound p 53 ltac:(lia) Hp) as Hd.
  unfold binary_round.
  assert (Hf : fexp prec emax (Zpos (digits2_pos p) + 0) = Zpos (digits2_pos p) - 53).
  { unfold fexp, emin, prec, emax. lia. }
  rewrite Hf. unfold shl_align.
  destruct (Zpos (digits2_pos p) - 53 - 0) as [|d|d] eqn:Ed; try lia.
  - assert (B : bounded prec emax p 0 = true).
    { unfold bounded, canonical_mantissa. rewrite Hf.
      apply andb_true_intro. split; [apply Z.eqb_eq | apply Z.leb_le];
        unfold emax, prec; lia. }
    rewrite (binary_round_aux_canonical s p 0 B).
    exists p, 0. split; [reflexivity | split; [exact B | reflexivity]].
  - assert (B : bounded prec emax (Pos.iter xO p d) (Zpos (digits2_pos p) - 53) = true).
    { unfold bounded, canonical_mantissa. rewrite digits2_pos_iter_xO.
      apply andb_true_intro. split; [apply Z.eqb_eq | apply Z.leb_le];
        unfold fexp, emin, emax, prec; lia. }
    rewrite (binary_round_aux_canonical s _ _ B).
    do 2 eexists. split; [reflexivity | split; [exact B |]].
    rewrite Zpos_iter_xO. rewrite <- Z.mul_assoc. f_equal.
    rewrite <- Z.pow_add_r by lia. f_equal. lia.
Qed.

Lemma flt_Z2F_int_lt_float (z : Z) (t : float) :
  Z.abs z < 2 ^ 53 -> valid t = true ->
  flt (Z2F z) t = int_lt_float z t.
Proof.
  intros Hz Hv. unfold Z2F, binary_normalize.
  destruct z as [|p|p].
  - destruct t as [s|s| |s m e]; try reflexivity.
    + destruct s; reflexivity.
    + destruct (bounded_cases m e Hv) as (L & _ & _).
      rewrite (int_lt_float_scaled 0 s m e L).
      assert (P : 0 < 2 ^ (e + 1074)) by (apply Z.pow_pos_nonneg; lia).
      destruct s; cbn [flt SFltb SFcompare cond_Zopp]; symmetry;
        [apply Z.ltb_ge | apply Z.ltb_lt]; nia.
  - destruct (binary_round_bounded false p) as (m' & e' & -> & B' & V'); [lia |].
    destruct t as [s|s| |s m e]; try reflexivity.
    + destruct s; reflexivity.
    + destruct (bounded_cases m e Hv) as (L & _ & _).
      rewrite (int_lt_float_scaled (Zpos p) s m e L). rewrite <- V'.
      assert (P : 0 < 2 ^ (e + 1074)) by (apply Z.pow_pos_nonneg; lia).
      destruct (bounded_cases m' e' B') as (L' & _ & _).
      assert (P' : 0 < 2 ^ (e' + 1074)) by (apply Z.pow_pos_nonneg; lia).
      destruct s; cbn [flt SFltb SFcompare cond_Zopp].
      * symmetry. apply Z.ltb_ge. nia.
      * rewrite (finite_compare_scaled m' m e' e B' Hv).
        destruct (Z.compare_spec (Zpos m' * 2 ^ (e' + 1074))
                                 (Zpos m * 2 ^ (e + 1074))) as [C | C | C];
          symmetry; [apply Z.ltb_ge | apply Z.ltb_lt | apply Z.ltb_ge]; lia.
  - destruct (binary_round_bounded true p) as (m' & e' & -> & B' & V'); [lia |].
    destruct t as [s|s| |s m e]; try reflexivity.
    + destruct s; reflexivity.
    + destruct (bounded_cases m e Hv) as (L & _ & _).
      rewrite (int_lt_float_scaled (Zneg p) s m e L).
      assert (P : 0 < 2 ^ (e + 1074)) by (apply Z.pow_pos_nonneg; lia).
      destruct (bounded_cases m' e' B') as (L' & _ & _).
      assert (P' : 0 < 2 ^ (e' + 1074)) by (apply Z.pow_pos_nonneg; lia).
      assert (V'' : Zneg p * 2 ^ 1074 = - (Zpos m' * 2 ^ (e' + 1074))) by lia.
      rewrite V''.
      destruct s; cbn [flt SFltb SFcompare cond_Zopp].
      * replace (match e' ?= e with
                 | Eq => CompOpp (Pos.compare_cont Eq m' m)
                 | Lt => Gt
                 | Gt => Lt
                 end)
          with (CompOpp (match e' ?= e with
                         | Eq => Pos.compare_cont Eq m' m
                         | Lt => Lt
                         | Gt => Gt
                         end))
          by (destruct (e' ?= e); reflexivity).
        rewrite (finite_compare_scaled m' m e' e B' Hv).
        destruct (Z.compare_spec (Zpos m' * 2 ^ (e' + 1074))
                                 (Zpos m * 2 ^ (e + 1074))) as [C | C | C];
          cbn [CompOpp]; symmetry;
          [apply Z.ltb_ge | apply Z.ltb_ge | apply Z.ltb_lt]; lia.
      * symmetry. apply Z.ltb_lt. nia.
Qed.

Lemma below_int_float (z : Z) (p : option float) :
  Z.abs z < 2 ^ 53 ->
  (forall t, p = Some t -> valid t = true) ->
  below (Int z) p = below (Float (Z2F z)) p.
Proof.
  intros Hz Hv. destruct p as [t|]; [| reflexivity].
  simpl. symmetry. apply flt_Z2F_int_lt_float; [exact Hz | apply Hv; reflexivity].
Qed.

(** X12: an integer value is classified as the float of the same value.
    For an integer below [2 ^ 53] in absolute value and a row whose present
    thresholds are well-formed floats, classifying the integer and
    classifying its float give the same bucket. *)
Theorem get_percentile_for_comp_int_as_float :
  forall (row : TableRow) (z : Z),
    Z.abs z < 2 ^ 53 ->
    (forall t, In (Some t) (percentiles row) -> valid t = true) ->
    get_percentile_for_comp row (Int z)
    = get_percentile_for_comp row (Float (Z2F z)).
Proof.
  intros row z Hz Hv. unfold get_percentile_for_comp.
  rewrite !(below_int_float z) by
    (try exact Hz; intros t Ht; apply Hv; rewrite <- Ht;
     unfold percentiles; simpl; auto).
  reflexivity.
Qed.

Lemma get_percentile_for_comp_int_as_float_witness :
  get_percentile_for_comp row_total_rvus (Int 7000)
  = get_percentile_for_comp row_total_rvus (Float (Z2F 7000)).
Proof.
  apply (get_percentile_for_comp_int_as_float row_total_rvus 7000).
  - simpl. lia.
  - intros t Ht. simpl in Ht.
    destruct Ht as [Ht | [Ht | [Ht | [Ht | []]]]];
      try discriminate Ht; injection Ht as <-; vm_compute; reflexivity.
Defined.
